(** * Connection hooks and adaptive cache tuning of the SQLite drivers

    A shallow embedding of [internal/db/sqlite/db_open_cgo.go]: the two
    connection hooks registered by [registerMainDriver] and
    [registerFolderDriver], the static pragma profiles, and
    [tuneFolderCacheSize].

    The SQLite engine is an external collaborator.  It is modelled as an
    oracle ([Engine]) that decides, from the history of calls made on the
    connection so far, whether each primitive succeeds and what a fetched
    row contains.  The hooks run in a state monad over [State], which keeps
    the ordered log of engine calls, the statement and cursor handles that
    are still open, and the structured log output. *)

From Stdlib Require Import ZArith String List Bool Lia DecimalString DecimalPos.
Import ListNotations.
Local Open Scope Z_scope.
Local Open Scope string_scope.

(** ** Go values *)

(** A Go [error] value; [option error] is an [error] that may be [nil]. *)
Definition error : Type := string.

(** [int64] arithmetic: a value is a [Z], and a product is reduced to the
    signed 64-bit range the way the Go runtime wraps it. *)
Definition wrap64 (z : Z) : Z := (z + 2 ^ 63) mod 2 ^ 64 - 2 ^ 63.

Definition int64_mul (a b : Z) : Z := wrap64 (a * b).

Definition min_int64 : Z := - 2 ^ 63.
Definition max_int64 : Z := 2 ^ 63 - 1.

Definition is_int64 (z : Z) : Prop := min_int64 <= z <= max_int64.

(** [fmt.Sprintf("%d", z)]: decimal digits, with a leading minus sign for
    a negative number. *)
Definition fmt_d (z : Z) : string := NilZero.string_of_int (Z.to_int z).

#[global] Arguments fmt_d : simpl never.

(** [driver.Value]: what a result column can hold. *)
Inductive Value : Type :=
| Vnil
| Vint64 (v : Z)
| Vfloat64 (bits : Z)
| Vbool (b : bool)
| Vbytes (b : list Byte.byte)
| Vstring (s : string)
| Vtime (unix_nano : Z).

(** ** The engine and the connection state *)

(** A prepared statement and a result cursor, as handed out by the engine. *)
Record Stmt : Type := { stmt_id : nat; stmt_sql : string }.
Record Rows : Type := { rows_id : nat; rows_stmt : Stmt }.

(** The primitives of [sqlite3.SQLiteConn], [driver.Stmt] and
    [driver.Rows] that the hooks call. *)
Inductive Call : Type :=
| Exec (sql : string)
| Prepare (sql : string)
| Query (s : Stmt)
| Next (r : Rows)
| RowsClose (r : Rows)
| StmtClose (s : Stmt).

(** [slog.Level] *)
Inductive Level : Type := LevelDebug | LevelInfo | LevelWarn.

Record State : Type := {
  calls : list Call;          (* engine calls on this connection, oldest first *)
  open_stmts : list nat;      (* prepared statements not yet closed *)
  open_rows : list nat;       (* result cursors not yet closed *)
  next_id : nat;              (* next handle the engine hands out *)
  slog : list (Level * string) (* log records, oldest first *)
}.

(** The engine's answers.  Each one may depend on everything that was
    called on the connection before.  [None] is a [nil] error. *)
Record Engine : Type := {
  exec_outcome : list Call -> string -> option error;
  prepare_outcome : list Call -> string -> option error;
  query_outcome : list Call -> Stmt -> option error;
  next_outcome : list Call -> Rows -> error + Value
}.

(** A connection on which nothing has happened yet. *)
Definition fresh_conn : State :=
  {| calls := []; open_stmts := []; open_rows := []; next_id := 0%nat; slog := [] |}.

(** The statements passed to [conn.Exec], in call order. *)
Fixpoint execs (cs : list Call) : list string :=
  match cs with
  | [] => []
  | Exec sql :: rest => sql :: execs rest
  | _ :: rest => execs rest
  end.

Definition is_exec (c : Call) : bool :=
  match c with Exec _ => true | _ => false end.

(** ** The state monad the hooks run in *)

Definition M (A : Type) : Type := State -> A * State.

Definition ret {A : Type} (a : A) : M A := fun s => (a, s).

Definition bind {A B : Type} (m : M A) (f : A -> M B) : M B :=
  fun s => let (a, s') := m s in f a s'.

Declare Scope hook_scope.
Delimit Scope hook_scope with hook.
Notation "x <- m ;; k" := (bind m (fun x => k))
  (at level 61, m at next level, right associativity) : hook_scope.
Notation "m ;; k" := (bind m (fun _ => k))
  (at level 61, right associativity) : hook_scope.
Local Open Scope hook_scope.

(** [for _, x := range l { body }] with the loop's mutable locals threaded
    through as [acc]. *)
Fixpoint for_range {A L : Type} (l : list A) (body : A -> L -> M L) (acc : L) : M L :=
  match l with
  | [] => ret acc
  | x :: rest => acc' <- body x acc ;; for_range rest body acc'
  end.

Definition called (c : Call) (s : State) : State :=
  {| calls := calls s ++ [c]; open_stmts := open_stmts s; open_rows := open_rows s;
     next_id := next_id s; slog := slog s |}.

Definition remove_id (n : nat) (l : list nat) : list nat :=
  filter (fun m => negb (Nat.eqb m n)) l.

Definition slog_at (lvl : Level) (msg : string) : M unit :=
  fun s => (tt, {| calls := calls s; open_stmts := open_stmts s; open_rows := open_rows s;
                   next_id := next_id s; slog := slog s ++ [(lvl, msg)] |}).

Section Driver.

(** Package-level constants that [db_open_cgo.go] uses and other files of
    the package declare. *)
Variable applicationIDMain : Z.
Variable applicationIDFolder : Z.
Variable folderMaxCacheSize : Z.

Variable eng : Engine.

(** *** Engine primitives *)

(** [conn.Exec(sql, nil)] *)
Definition conn_Exec (sql : string) : M (option error) :=
  fun s => (exec_outcome eng (calls s) sql, called (Exec sql) s).

(** [conn.Prepare(sql)] *)
Definition conn_Prepare (sql : string) : M (error + Stmt) :=
  fun s =>
    let s' := called (Prepare sql) s in
    match prepare_outcome eng (calls s) sql with
    | Some err => (inl err, s')
    | None =>
        let stmt := {| stmt_id := next_id s; stmt_sql := sql |} in
        (inr stmt,
         {| calls := calls s'; open_stmts := open_stmts s' ++ [next_id s];
            open_rows := open_rows s'; next_id := S (next_id s); slog := slog s' |})
    end.

(** [stmt.Query(nil)] *)
Definition stmt_Query (stmt : Stmt) : M (error + Rows) :=
  fun s =>
    let s' := called (Query stmt) s in
    match query_outcome eng (calls s) stmt with
    | Some err => (inl err, s')
    | None =>
        let rows := {| rows_id := next_id s; rows_stmt := stmt |} in
        (inr rows,
         {| calls := calls s'; open_stmts := open_stmts s';
            open_rows := open_rows s' ++ [next_id s]; next_id := S (next_id s);
            slog := slog s' |})
    end.

(** [rows.Next(results)] on the one-column cursor of the count query: an
    error, or the value stored in [results[0]]. *)
Definition rows_Next (rows : Rows) : M (error + Value) :=
  fun s => (next_outcome eng (calls s) rows, called (Next rows) s).

(** [rows.Close()]; its error is not looked at. *)
Definition rows_Close (rows : Rows) : M unit :=
  fun s =>
    let s' := called (RowsClose rows) s in
    (tt, {| calls := calls s'; open_stmts := open_stmts s';
            open_rows := remove_id (rows_id rows) (open_rows s');
            next_id := next_id s'; slog := slog s' |}).

(** [stmt.Close()]; its error is not looked at. *)
Definition stmt_Close (stmt : Stmt) : M unit :=
  fun s =>
    let s' := called (StmtClose stmt) s in
    (tt, {| calls := calls s'; open_stmts := remove_id (stmt_id stmt) (open_stmts s');
            open_rows := open_rows s'; next_id := next_id s'; slog := slog s' |}).

(** *** Constants and profiles *)

Definition FolderDBDriver : string := "sqlite3_folder".
Definition MainDBDriver : string := "sqlite3_main".
Definition commonOptions : string := "_fk=true&_rt=true&_sync=1&_txlock=immediate".
(** Declared next to the driver names; line 118 writes the literal. *)
Definition filesRowIndexCost : Z := 128.

Definition folder_pragmas : list string :=
  [ "journal_mode = WAL";
    "optimize = 0x10002";
    "auto_vacuum = INCREMENTAL";
    "application_id = " ++ fmt_d applicationIDFolder;
    "busy_timeout = 5000";
    "temp_store = MEMORY";
    "synchronous = NORMAL";
    "journal_size_limit = 8388608";
    "cache_spill = FALSE" ].

Definition main_pragmas : list string :=
  [ "journal_mode = WAL";
    "optimize = 0x10002";
    "auto_vacuum = INCREMENTAL";
    "application_id = " ++ fmt_d applicationIDMain ].

(** *** The main hook *)

(** The [ConnectHook] of [registerMainDriver]; the result is the hook's
    [error]. *)
Definition mainConnectHook : M (option error) :=
  slog_at LevelDebug "DB Connect (main)" ;;
  for_range main_pragmas
    (fun pragma (_ : unit) =>
       let pragma_stmt := "PRAGMA " ++ pragma in
       slog_at LevelDebug ("Main: " ++ pragma_stmt) ;;
       conn_Exec pragma_stmt ;;
       ret tt) tt ;;
  ret None.

(** *** The cache estimator *)

Definition count_query (table : string) : string :=
  "SELECT CAST(SUBSTR(stat, 1, INSTR(stat, ' ') - 1) AS INTEGER) FROM sqlite_stat1 WHERE tbl = '"
  ++ table ++ "' LIMIT 1".

(** Where one pass of the loop body is left: at one of the four
    [continue] statements, or past the conversion with the count. *)
Inductive Step : Type := AtPrepare | AtQuery | AtFetch | AtConvert.

Inductive Fetched : Type :=
| Counted (val : Z)
| Skipped (at_step : Step).

(** Lines 102-112: the body of the loop up to the assignment. *)
Definition fetch_count (table : string) : M Fetched :=
  p <- conn_Prepare (count_query table) ;;
  match p with
  | inl _ => slog_at LevelWarn "Couldn't prepare query for cache tuning" ;; ret (Skipped AtPrepare)
  | inr stmt =>
      q <- stmt_Query stmt ;;
      match q with
      | inl _ => slog_at LevelWarn "Couldn't execute query for cache tuning" ;; ret (Skipped AtQuery)
      | inr rows =>
          n <- rows_Next rows ;;
          match n with
          | inl _ =>
              slog_at LevelWarn "Couldn't fetch row count estimate for cache tuning" ;;
              ret (Skipped AtFetch)
          | inr result =>
              rows_Close rows ;;
              stmt_Close stmt ;;
              match result with
              | Vint64 val => ret (Counted val)
              | _ => slog_at LevelWarn "Couldn't convert row count to int64" ;; ret (Skipped AtConvert)
              end
          end
      end
  end.

(** Lines 101-115: one pass of the loop over the locals
    [(files_count, blocklists_count)]. *)
Definition count_table (table : string) (locals : Z * Z) : M (Z * Z) :=
  r <- fetch_count table ;;
  match r with
  | Skipped _ => ret locals
  | Counted val =>
      let locals' :=
        if String.eqb table "files" then (val, snd locals) else (fst locals, val) in
      slog_at LevelDebug table ;;
      ret locals'
  end.

(** Lines 116-121: the kilobyte target computed from the two counts. *)
Definition count_estimate (files_count blocklists_count : Z) : Z :=
  Z.max files_count blocklists_count.

Definition target_bytes (files_count blocklists_count : Z) : Z :=
  Z.min (int64_mul 128 (count_estimate files_count blocklists_count)) folderMaxCacheSize.

(** Go's [/] on integers truncates toward zero. *)
Definition target_kb (files_count blocklists_count : Z) : Z :=
  Z.quot (target_bytes files_count blocklists_count) 1000.

Definition cache_size_pragma (target_cache_size : Z) : string :=
  "PRAGMA cache_size = -" ++ fmt_d target_cache_size.

(** Lines 122-127. *)
Definition apply_cache_size (target_cache_size : Z) : M unit :=
  if (2000 <? target_cache_size)%Z then
    let pragma := cache_size_pragma target_cache_size in
    conn_Exec pragma ;;
    slog_at LevelInfo "Folder DB cache tuned"
  else ret tt.

Definition tuneFolderCacheSize : M unit :=
  locals <- for_range ["files"; "blocklists"] count_table (0, 0) ;;
  apply_cache_size (target_kb (fst locals) (snd locals)).

(** *** The folder hook *)

(** Lines 73-78: the static profile. *)
Definition folder_static_profile : M unit :=
  slog_at LevelDebug "DB Connect (folder)" ;;
  for_range folder_pragmas
    (fun pragma (_ : unit) =>
       let pragma_stmt := "PRAGMA " ++ pragma in
       slog_at LevelDebug ("Folder: " ++ pragma_stmt) ;;
       conn_Exec pragma_stmt ;;
       ret tt) tt.

(** The [ConnectHook] of [registerFolderDriver]; the result is the hook's
    [error]. *)
Definition folderConnectHook : M (option error) :=
  folder_static_profile ;;
  tuneFolderCacheSize ;;
  ret None.

End Driver.

(** ** The fixed-size hooks

    A second source file of package [sqlite] registers the same two driver
    names with hooks that set one fixed cache size and do nothing else. *)

Module FixedCache.

Section Hooks.

Variable eng : Engine.

Definition dbDriver : string := "sqlite3_folder".
Definition commonOptions : string := "_fk=true&_rt=true&_sync=1&_txlock=immediate".

(** The [ConnectHook] of its [registerMainDriver]. *)
Definition mainConnectHook : M (option error) :=
  conn_Exec eng "PRAGMA cache_size = -8000" ;;
  ret None.

(** The [ConnectHook] of its [registerFolderDriver]. *)
Definition folderConnectHook : M (option error) :=
  conn_Exec eng "PRAGMA cache_size = -8000" ;;
  ret None.

End Hooks.

End FixedCache.

(** ** Observations on one run of the estimator *)

Section Observations.

Variable eng : Engine.

(** What the pass over [files] obtains when the loop starts in [s]. *)
Definition files_outcome (s : State) : Fetched :=
  fst (fetch_count eng "files" s).

(** The state in which the pass over [blocklists] starts. *)
Definition after_files (s : State) : State :=
  snd (count_table eng "files" (0, 0) s).

(** What the pass over [blocklists] obtains. *)
Definition blocklists_outcome (s : State) : Fetched :=
  fst (fetch_count eng "blocklists" (after_files s)).

(** The value a pass leaves in its local: the count, or the initial zero. *)
Definition value_of (r : Fetched) : Z :=
  match r with
  | Counted val => val
  | Skipped _ => 0
  end.

Definition files_count (s : State) : Z := value_of (files_outcome s).
Definition blocklists_count (s : State) : Z := value_of (blocklists_outcome s).

(** The state when the loop is left, where line 116 starts. *)
Definition after_counting (s : State) : State :=
  snd (for_range ["files"; "blocklists"] (count_table eng) (0, 0) s).

End Observations.

(** The override that line 125 executes for a kilobyte target, if any. *)
Definition override_for (target_cache_size : Z) : list string :=
  if (2000 <? target_cache_size)%Z then [cache_size_pragma target_cache_size] else [].

(** ** A test double for the engine *)

(** What the statistics store holds for one table. *)
Inductive TableStat : Type :=
| NoStatTable            (* sqlite_stat1 does not exist: the query does not compile *)
| QueryFails             (* the statement cannot be run *)
| NoStatRow              (* no row for the table: the first fetch reports the end *)
| StatRow (v : Value).   (* the first column of the row *)

Definition fake_stat (files blocklists : TableStat) (sql : string) : option TableStat :=
  if String.eqb sql (count_query "files") then Some files
  else if String.eqb sql (count_query "blocklists") then Some blocklists
  else None.

(** An engine on which every [Exec] succeeds and the two count queries
    behave as the given statistics say. *)
Definition fake_engine (files blocklists : TableStat) : Engine :=
  {| exec_outcome := fun _ _ => None;
     prepare_outcome := fun _ sql =>
       match fake_stat files blocklists sql with
       | Some NoStatTable => Some "no such table: sqlite_stat1"
       | _ => None
       end;
     query_outcome := fun _ stmt =>
       match fake_stat files blocklists (stmt_sql stmt) with
       | Some QueryFails => Some "bind failed"
       | _ => None
       end;
     next_outcome := fun _ rows =>
       match fake_stat files blocklists (stmt_sql (rows_stmt rows)) with
       | Some (StatRow v) => inr v
       | _ => inl "EOF"
       end |}.

(** An engine that rejects every directive and has no statistics. *)
Definition failing_engine : Engine :=
  {| exec_outcome := fun _ _ => Some "SQL logic error";
     prepare_outcome := fun _ _ => Some "no such table: sqlite_stat1";
     query_outcome := fun _ _ => Some "bind failed";
     next_outcome := fun _ _ => inl "EOF" |}.

(** ** What one pass of the loop leaves behind

    The calls, handles and log records of one pass, by the place where the
    pass ends.  [n] is the handle the engine hands out next when the pass
    starts: the statement gets [n], the cursor [S n]. *)

Definition pass_stmt (table : string) (n : nat) : Stmt :=
  {| stmt_id := n; stmt_sql := count_query table |}.

Definition pass_rows (table : string) (n : nat) : Rows :=
  {| rows_id := S n; rows_stmt := pass_stmt table n |}.

Definition pass_calls (table : string) (n : nat) (r : Fetched) : list Call :=
  match r with
  | Skipped AtPrepare => [Prepare (count_query table)]
  | Skipped AtQuery => [Prepare (count_query table); Query (pass_stmt table n)]
  | Skipped AtFetch =>
      [Prepare (count_query table); Query (pass_stmt table n); Next (pass_rows table n)]
  | _ =>
      [Prepare (count_query table); Query (pass_stmt table n); Next (pass_rows table n);
       RowsClose (pass_rows table n); StmtClose (pass_stmt table n)]
  end.

(** How many handles the pass obtained. *)
Definition pass_ids (r : Fetched) : nat :=
  match r with
  | Skipped AtPrepare => 0
  | Skipped AtQuery => 1
  | _ => 2
  end.

Definition pass_open_stmts (n : nat) (r : Fetched) : list nat :=
  match r with
  | Skipped AtQuery | Skipped AtFetch => [n]
  | _ => []
  end.

Definition pass_open_rows (n : nat) (r : Fetched) : list nat :=
  match r with
  | Skipped AtFetch => [S n]
  | _ => []
  end.

(** Whether the pass ends at a [continue] that is reached with a handle
    open. *)
Definition leaves_handle (r : Fetched) : bool :=
  match r with
  | Skipped AtQuery | Skipped AtFetch => true
  | _ => false
  end.

Definition pass_log (table : string) (r : Fetched) : list (Level * string) :=
  match r with
  | Counted _ => [(LevelDebug, table)]
  | Skipped AtPrepare => [(LevelWarn, "Couldn't prepare query for cache tuning")]
  | Skipped AtQuery => [(LevelWarn, "Couldn't execute query for cache tuning")]
  | Skipped AtFetch => [(LevelWarn, "Couldn't fetch row count estimate for cache tuning")]
  | Skipped AtConvert => [(LevelWarn, "Couldn't convert row count to int64")]
  end.

(** Every open handle was handed out before [next_id]. *)
Definition handles_fresh (s : State) : bool :=
  forallb (fun i => Nat.ltb i (next_id s)) (open_stmts s) &&
  forallb (fun i => Nat.ltb i (next_id s)) (open_rows s).

(** The engine [e] with every [Exec] rejected. *)
Definition rejecting_exec (e : Engine) : Engine :=
  {| exec_outcome := fun _ _ => Some "SQL logic error";
     prepare_outcome := prepare_outcome e;
     query_outcome := query_outcome e;
     next_outcome := next_outcome e |}.

(** Reads a decimal integer back, as the engine does with the argument of
    a pragma. *)
Definition read_d (text : string) : option Z :=
  option_map Z.of_int (NilZero.int_of_string text).

(** * Properties *)

Local Open Scope list_scope.

(** Settles a closed comparison, or a conjunction of them, by evaluation. *)
Ltac by_evaluation :=
  vm_compute;
  repeat match goal with |- _ /\ _ => split end;
  first [reflexivity | let E := fresh "E" in intros E; discriminate E].

(** Unfolds one layer of the monad and of the engine primitives. *)
Ltac step_hook :=
  unfold bind, ret, slog_at, conn_Exec, conn_Prepare, stmt_Query, rows_Next,
    rows_Close, stmt_Close, called; simpl.

(** Settles the calls, the log and the handle count of a pass, and leaves
    the handles to account for under the freshness hypothesis [Hf]. *)
Ltac pass_start :=
  (split; [now rewrite ?app_nil_r, <- ?app_assoc |]);
  (split; [now rewrite ?app_nil_r |]);
  (split; [reflexivity |]);
  intros Hf.

(** ** The call log *)

Lemma execs_app (l l' : list Call) : execs (l ++ l') = execs l ++ execs l'.
Proof.
  induction l as [| c l IH]; simpl; [reflexivity |].
  destruct c; simpl; rewrite IH; reflexivity.
Qed.

Lemma execs_no_exec (l : list Call) :
  forallb (fun c => negb (is_exec c)) l = true -> execs l = [].
Proof.
  induction l as [| c l IH]; simpl; [reflexivity |].
  destruct c; simpl; intros H; try discriminate; auto.
Qed.

Section Estimator.

Variable folderMaxCacheSize : Z.
Variable eng : Engine.

(** The calls one pass of the loop adds to the log; none of them is an
    [Exec]. *)
Lemma fetch_count_calls (table : string) (s : State) :
  exists more,
    calls (snd (fetch_count eng table s)) =
      calls s ++ Prepare (count_query table) :: more /\
    forallb (fun c => negb (is_exec c)) more = true.
Proof.
  unfold fetch_count. step_hook.
  destruct (prepare_outcome eng (calls s) _); simpl.
  { eexists; split; [reflexivity | reflexivity]. }
  destruct (query_outcome eng _ _); simpl.
  { eexists; split; [rewrite <- app_assoc; reflexivity | reflexivity]. }
  destruct (next_outcome eng _ _) as [err | result]; simpl.
  { eexists; split; [rewrite <- !app_assoc; reflexivity | reflexivity]. }
  destruct result; simpl;
    (eexists; split; [rewrite <- !app_assoc; reflexivity | reflexivity]).
Qed.

Lemma count_table_state (table : string) (locals : Z * Z) (s : State) :
  calls (snd (count_table eng table locals s)) = calls (snd (fetch_count eng table s)).
Proof.
  unfold count_table, bind.
  destruct (fetch_count eng table s) as [[val | st] s']; reflexivity.
Qed.

Lemma count_table_locals (table : string) (locals : Z * Z) (s : State) :
  fst (count_table eng table locals s) =
  match fst (fetch_count eng table s) with
  | Counted val => if String.eqb table "files" then (val, snd locals) else (fst locals, val)
  | Skipped _ => locals
  end.
Proof.
  unfold count_table, bind.
  destruct (fetch_count eng table s) as [[val | st] s']; reflexivity.
Qed.

(** The locals when the loop is left. *)
Lemma loop_locals (s : State) :
  fst (for_range ["files"; "blocklists"] (count_table eng) (0, 0) s) =
  (files_count eng s, blocklists_count eng s).
Proof.
  unfold files_count, blocklists_count, files_outcome, blocklists_outcome, after_files.
  cbn [for_range]. unfold bind at 1.
  pose proof (count_table_locals "files" (0, 0) s) as Hf.
  destruct (count_table eng "files" (0, 0) s) as [l1 s1]. cbn [fst snd] in *.
  unfold bind at 1.
  pose proof (count_table_locals "blocklists" l1 s1) as Hb.
  destruct (count_table eng "blocklists" l1 s1) as [l2 s2]. cbn [fst snd ret] in *.
  subst l2 l1.
  destruct (fst (fetch_count eng "files" s)), (fst (fetch_count eng "blocklists" s1));
    reflexivity.
Qed.

Lemma tune_run (s : State) :
  tuneFolderCacheSize folderMaxCacheSize eng s =
  apply_cache_size eng
    (target_kb folderMaxCacheSize (files_count eng s) (blocklists_count eng s))
    (after_counting eng s).
Proof.
  unfold tuneFolderCacheSize, after_counting, bind.
  pose proof (loop_locals s) as H.
  destruct (for_range _ _ _ s) as [locals s']. cbn [fst snd] in *.
  subst locals. reflexivity.
Qed.

End Estimator.

Section EstimatorLog.

Variable folderMaxCacheSize : Z.
Variable eng : Engine.

Lemma count_table_calls (table : string) (locals : Z * Z) (s : State) :
  exists more,
    calls (snd (count_table eng table locals s)) =
      calls s ++ Prepare (count_query table) :: more /\
    forallb (fun c => negb (is_exec c)) more = true.
Proof.
  rewrite count_table_state. apply fetch_count_calls.
Qed.

(** The loop only prepares, queries, fetches and closes. *)
Lemma after_counting_calls (s : State) :
  exists p1 p2,
    calls (after_counting eng s) =
      calls s ++ (Prepare (count_query "files") :: p1)
              ++ (Prepare (count_query "blocklists") :: p2) /\
    forallb (fun c => negb (is_exec c)) p1 = true /\
    forallb (fun c => negb (is_exec c)) p2 = true.
Proof.
  unfold after_counting. cbn [for_range]. unfold bind at 1.
  destruct (count_table_calls "files" (0, 0) s) as (p1 & E1 & N1).
  destruct (count_table eng "files" (0, 0) s) as [l1 s1]. cbn [snd] in E1.
  unfold bind at 1.
  destruct (count_table_calls "blocklists" l1 s1) as (p2 & E2 & N2).
  destruct (count_table eng "blocklists" l1 s1) as [l2 s2]. cbn [snd ret] in *.
  exists p1, p2. split; [| split; assumption].
  rewrite E2, E1, <- app_assoc. reflexivity.
Qed.

Lemma after_counting_execs (s : State) :
  execs (calls (after_counting eng s)) = execs (calls s).
Proof.
  destruct (after_counting_calls s) as (p1 & p2 & E & N1 & N2).
  rewrite E, !execs_app. cbn [execs].
  rewrite (execs_no_exec _ N1), (execs_no_exec _ N2), app_nil_r. reflexivity.
Qed.

Lemma apply_cache_size_calls (target : Z) (s : State) :
  calls (snd (apply_cache_size eng target s)) =
  calls s ++ map Exec (override_for target).
Proof.
  unfold apply_cache_size, override_for.
  destruct (2000 <? target)%Z; step_hook; [reflexivity | now rewrite app_nil_r].
Qed.

(** The whole call log of the estimator: the probes of the loop, then the
    override if the target asks for one. *)
Lemma tune_calls (s : State) :
  calls (snd (tuneFolderCacheSize folderMaxCacheSize eng s)) =
  calls (after_counting eng s) ++
  map Exec (override_for
    (target_kb folderMaxCacheSize (files_count eng s) (blocklists_count eng s))).
Proof.
  rewrite tune_run. apply apply_cache_size_calls.
Qed.

Lemma execs_map_Exec (l : list string) : execs (map Exec l) = l.
Proof.
  induction l as [| x l IH]; simpl; [reflexivity | now rewrite IH].
Qed.

Lemma tune_execs (s : State) :
  execs (calls (snd (tuneFolderCacheSize folderMaxCacheSize eng s))) =
  execs (calls s) ++
  override_for (target_kb folderMaxCacheSize (files_count eng s) (blocklists_count eng s)).
Proof.
  rewrite tune_calls, execs_app, after_counting_execs, execs_map_Exec. reflexivity.
Qed.

End EstimatorLog.

(** ** Arithmetic of the target *)

Lemma wrap64_id (z : Z) : is_int64 z -> wrap64 z = z.
Proof.
  unfold is_int64, min_int64, max_int64, wrap64. intros H.
  rewrite Z.mod_small; lia.
Qed.

Lemma wrap64_range (z : Z) : is_int64 (wrap64 z).
Proof.
  unfold is_int64, min_int64, max_int64, wrap64.
  pose proof (Z.mod_pos_bound (z + 2 ^ 63) (2 ^ 64) ltac:(lia)). lia.
Qed.

(** The product of line 118 is exact as long as the estimate stays within
    56 bits. *)
Lemma int64_mul_128_exact (n : Z) :
  - 2 ^ 56 <= n < 2 ^ 56 -> int64_mul 128 n = 128 * n.
Proof.
  intros H. unfold int64_mul. apply wrap64_id.
  unfold is_int64, min_int64, max_int64. lia.
Qed.

Lemma target_kb_le_ceiling (M f b : Z) : target_kb M f b <= M ÷ 1000.
Proof.
  unfold target_kb, target_bytes.
  apply Z.quot_le_mono; [lia | apply Z.le_min_r].
Qed.

Lemma target_kb_exact (M f b : Z) :
  - 2 ^ 56 <= Z.max f b < 2 ^ 56 ->
  target_kb M f b = Z.min (128 * Z.max f b) M ÷ 1000.
Proof.
  intros H. unfold target_kb, target_bytes, count_estimate.
  rewrite int64_mul_128_exact by exact H. reflexivity.
Qed.

(** ** The hooks *)

Section Hooks.

Variables applicationIDMain applicationIDFolder folderMaxCacheSize : Z.
Variable eng : Engine.

(** The loop over a profile: one [Exec] per directive, in order, and no
    other engine call. *)
Lemma profile_loop_run (prefix : string) (pragmas : list string) (s : State) :
  calls (snd (for_range pragmas
                (fun pragma (_ : unit) =>
                   let pragma_stmt := ("PRAGMA " ++ pragma)%string in
                   slog_at LevelDebug (prefix ++ pragma_stmt)%string ;;
                   conn_Exec eng pragma_stmt ;;
                   ret tt) tt s)) =
    calls s ++ map (fun pragma => Exec ("PRAGMA " ++ pragma)%string) pragmas /\
  open_stmts (snd (for_range pragmas
                (fun pragma (_ : unit) =>
                   let pragma_stmt := ("PRAGMA " ++ pragma)%string in
                   slog_at LevelDebug (prefix ++ pragma_stmt)%string ;;
                   conn_Exec eng pragma_stmt ;;
                   ret tt) tt s)) = open_stmts s /\
  open_rows (snd (for_range pragmas
                (fun pragma (_ : unit) =>
                   let pragma_stmt := ("PRAGMA " ++ pragma)%string in
                   slog_at LevelDebug (prefix ++ pragma_stmt)%string ;;
                   conn_Exec eng pragma_stmt ;;
                   ret tt) tt s)) = open_rows s.
Proof.
  revert s. induction pragmas as [| pragma rest IH]; intros s.
  - cbn [for_range ret snd map]. rewrite app_nil_r. repeat split.
  - cbn [for_range map]. unfold bind at 1 4 7.
    cbv beta zeta delta [bind ret slog_at conn_Exec called].
    cbv beta iota.
    destruct (IH {| calls := calls s ++ [Exec ("PRAGMA " ++ pragma)%string];
                    open_stmts := open_stmts s; open_rows := open_rows s;
                    next_id := next_id s;
                    slog := slog s ++ [(LevelDebug, (prefix ++ ("PRAGMA " ++ pragma))%string)] |})
      as (Hc & Hs & Hr).
    cbn [calls open_stmts open_rows next_id slog] in *.
    rewrite <- app_assoc in Hc. repeat split; assumption.
Qed.

Lemma main_hook_run (s : State) :
  calls (snd (mainConnectHook applicationIDMain eng s)) =
    calls s ++ map (fun pragma => Exec ("PRAGMA " ++ pragma)%string)
                   (main_pragmas applicationIDMain) /\
  open_stmts (snd (mainConnectHook applicationIDMain eng s)) = open_stmts s /\
  open_rows (snd (mainConnectHook applicationIDMain eng s)) = open_rows s.
Proof.
  unfold mainConnectHook.
  unfold bind at 1. cbv beta iota delta [slog_at].
  unfold bind at 1.
  destruct (profile_loop_run "Main: " (main_pragmas applicationIDMain)
              {| calls := calls s; open_stmts := open_stmts s; open_rows := open_rows s;
                 next_id := next_id s;
                 slog := slog s ++ [(LevelDebug, "DB Connect (main)"%string)] |})
    as (Hc & Hs & Hr).
  destruct (for_range (main_pragmas applicationIDMain) _ tt _) as [u s'].
  cbn [snd ret calls open_stmts open_rows] in *. repeat split; assumption.
Qed.

Lemma folder_static_profile_calls (s : State) :
  calls (snd (folder_static_profile applicationIDFolder eng s)) =
    calls s ++ map (fun pragma => Exec ("PRAGMA " ++ pragma)%string)
                   (folder_pragmas applicationIDFolder).
Proof.
  unfold folder_static_profile.
  unfold bind at 1. cbv beta iota delta [slog_at].
  destruct (profile_loop_run "Folder: " (folder_pragmas applicationIDFolder)
              {| calls := calls s; open_stmts := open_stmts s; open_rows := open_rows s;
                 next_id := next_id s;
                 slog := slog s ++ [(LevelDebug, "DB Connect (folder)"%string)] |})
    as (Hc & _).
  exact Hc.
Qed.

Lemma folder_hook_state (s : State) :
  snd (folderConnectHook applicationIDFolder folderMaxCacheSize eng s) =
  snd (tuneFolderCacheSize folderMaxCacheSize eng
         (snd (folder_static_profile applicationIDFolder eng s))).
Proof.
  unfold folderConnectHook, bind, ret.
  destruct (folder_static_profile applicationIDFolder eng s) as [u s0]. cbn [snd].
  destruct (tuneFolderCacheSize folderMaxCacheSize eng s0) as [u' s1].
  reflexivity.
Qed.

Lemma folder_hook_result (s : State) :
  fst (folderConnectHook applicationIDFolder folderMaxCacheSize eng s) = None.
Proof.
  unfold folderConnectHook, bind, ret.
  destruct (folder_static_profile applicationIDFolder eng s) as [u s0]. cbn [snd].
  destruct (tuneFolderCacheSize folderMaxCacheSize eng s0) as [u' s1].
  reflexivity.
Qed.

End Hooks.

(** ** The estimator on given counts *)

(** C1: on a folder connection whose statistics give 100000 for [files]
    and 40000 for [blocklists], and with a ceiling of at least 12,800,000
    bytes, the estimate is 100000 rows, the target is 12,800,000 bytes,
    that is 12800 kB, and the estimator executes exactly
    [PRAGMA cache_size = -12800], after its last probe. *)
Theorem tune_100000_files_40000_blocklists
    (folderMaxCacheSize : Z) (eng : Engine) (s : State) :
  files_outcome eng s = Counted 100000 ->
  blocklists_outcome eng s = Counted 40000 ->
  12800000 <= folderMaxCacheSize ->
  fst (for_range ["files"; "blocklists"] (count_table eng) (0, 0) s) = (100000, 40000) /\
  count_estimate 100000 40000 = 100000 /\
  target_bytes folderMaxCacheSize 100000 40000 = 12800000 /\
  target_kb folderMaxCacheSize 100000 40000 = 12800 /\
  calls (snd (tuneFolderCacheSize folderMaxCacheSize eng s)) =
    calls (after_counting eng s) ++ [Exec "PRAGMA cache_size = -12800"] /\
  execs (calls (snd (tuneFolderCacheSize folderMaxCacheSize eng s))) =
    execs (calls s) ++ ["PRAGMA cache_size = -12800"].
Proof.
  intros Hf Hb HM.
  assert (Hbytes : target_bytes folderMaxCacheSize 100000 40000 = 12800000).
  { unfold target_bytes. change (int64_mul 128 (count_estimate 100000 40000)) with 12800000.
    apply Z.min_l. exact HM. }
  assert (Hkb : target_kb folderMaxCacheSize 100000 40000 = 12800).
  { unfold target_kb. rewrite Hbytes. reflexivity. }
  assert (Hfc : files_count eng s = 100000) by (unfold files_count; now rewrite Hf).
  assert (Hbc : blocklists_count eng s = 40000) by (unfold blocklists_count; now rewrite Hb).
  repeat split.
  - rewrite loop_locals, Hfc, Hbc. reflexivity.
  - exact Hbytes.
  - exact Hkb.
  - rewrite tune_calls, Hfc, Hbc, Hkb. reflexivity.
  - rewrite tune_execs, Hfc, Hbc, Hkb. reflexivity.
Qed.

Lemma tune_100000_files_40000_blocklists_witness :
  fst (for_range ["files"; "blocklists"]
         (count_table (fake_engine (StatRow (Vint64 100000)) (StatRow (Vint64 40000))))
         (0, 0) fresh_conn) = (100000, 40000) /\
  count_estimate 100000 40000 = 100000 /\
  target_bytes 12800000 100000 40000 = 12800000 /\
  target_kb 12800000 100000 40000 = 12800 /\
  calls (snd (tuneFolderCacheSize 12800000
                (fake_engine (StatRow (Vint64 100000)) (StatRow (Vint64 40000))) fresh_conn)) =
    calls (after_counting (fake_engine (StatRow (Vint64 100000)) (StatRow (Vint64 40000)))
             fresh_conn) ++ [Exec "PRAGMA cache_size = -12800"] /\
  execs (calls (snd (tuneFolderCacheSize 12800000
                (fake_engine (StatRow (Vint64 100000)) (StatRow (Vint64 40000))) fresh_conn))) =
    execs (calls fresh_conn) ++ ["PRAGMA cache_size = -12800"].
Proof.
  apply (tune_100000_files_40000_blocklists 12800000
           (fake_engine (StatRow (Vint64 100000)) (StatRow (Vint64 40000))) fresh_conn).
  - reflexivity.
  - reflexivity.
  - lia.
Defined.

(** ** Statement and cursor handles *)

Lemma remove_id_fresh (n : nat) (l : list nat) :
  Forall (fun i => (i < n)%nat) l -> remove_id n (l ++ [n]) = l.
Proof.
  intros H. unfold remove_id. rewrite filter_app. simpl.
  rewrite Nat.eqb_refl. simpl. rewrite app_nil_r.
  induction H as [| i l Hi _ IH]; simpl; [reflexivity |].
  destruct (Nat.eqb_spec i n) as [-> | _]; [lia |]. simpl. now rewrite IH.
Qed.

(** Which handles one pass of the loop leaves behind, by the place where
    the pass ends: nothing after a failed [Prepare], after the conversion
    or after a count; the statement after a failed [Query]; the statement
    and the cursor after a failed [Next]. *)
Lemma fetch_count_handles (eng : Engine) (table : string) (s : State) :
  Forall (fun i => (i < next_id s)%nat) (open_stmts s) ->
  Forall (fun i => (i < next_id s)%nat) (open_rows s) ->
  let s' := snd (fetch_count eng table s) in
  match fst (fetch_count eng table s) with
  | Skipped AtQuery =>
      open_stmts s' = open_stmts s ++ [next_id s] /\ open_rows s' = open_rows s
  | Skipped AtFetch =>
      open_stmts s' = open_stmts s ++ [next_id s] /\
      open_rows s' = open_rows s ++ [S (next_id s)]
  | _ => open_stmts s' = open_stmts s /\ open_rows s' = open_rows s
  end.
Proof.
  intros Hs Hr. unfold fetch_count. step_hook.
  destruct (prepare_outcome eng (calls s) _); simpl; [split; reflexivity |].
  destruct (query_outcome eng _ _); simpl; [split; reflexivity |].
  destruct (next_outcome eng _ _) as [err | result]; simpl; [split; reflexivity |].
  assert (Hr' : Forall (fun i => (i < S (next_id s))%nat) (open_rows s)).
  { eapply Forall_impl; [| exact Hr]. simpl. intros. lia. }
  destruct result; simpl;
    (split; [apply remove_id_fresh; exact Hs | apply remove_id_fresh; exact Hr']).
Qed.

(** C2: the claim that every exit path releases the statement and the
    cursor does not hold.  When the statistics have no row for a table the
    first fetch fails, and the pass is left with the statement and the
    cursor open; when the query cannot be run the statement stays open.
    After the estimator has returned these handles are still open. *)
Theorem tune_leaves_handles_open (folderMaxCacheSize : Z) :
  open_stmts (snd (tuneFolderCacheSize folderMaxCacheSize
                     (fake_engine NoStatRow (StatRow (Vint64 40000))) fresh_conn)) = [0%nat] /\
  open_rows (snd (tuneFolderCacheSize folderMaxCacheSize
                    (fake_engine NoStatRow (StatRow (Vint64 40000))) fresh_conn)) = [1%nat] /\
  open_stmts (snd (tuneFolderCacheSize folderMaxCacheSize
                     (fake_engine QueryFails QueryFails) fresh_conn)) = [0%nat; 1%nat] /\
  open_rows (snd (tuneFolderCacheSize folderMaxCacheSize
                    (fake_engine QueryFails QueryFails) fresh_conn)) = [].
Proof.
  rewrite !tune_run. unfold apply_cache_size.
  repeat split; match goal with |- context [(2000 <? ?k)%Z] => destruct (2000 <? k)%Z end;
    reflexivity.
Qed.

(** ** Failing probes *)

(** C3: when the probes of both tables fail, at whichever step, both
    locals stay zero, the estimate and the kilobyte target are zero (for a
    ceiling that is not negative), the folder hook executes the static
    directives and nothing after them, and it returns [nil]. *)
Theorem both_probes_fail
    (applicationIDFolder folderMaxCacheSize : Z) (eng : Engine) (s : State)
    (step1 step2 : Step) :
  0 <= folderMaxCacheSize ->
  files_outcome eng (snd (folder_static_profile applicationIDFolder eng s)) = Skipped step1 ->
  blocklists_outcome eng (snd (folder_static_profile applicationIDFolder eng s)) = Skipped step2 ->
  fst (for_range ["files"; "blocklists"] (count_table eng) (0, 0)
         (snd (folder_static_profile applicationIDFolder eng s))) = (0, 0) /\
  count_estimate 0 0 = 0 /\
  target_kb folderMaxCacheSize 0 0 = 0 /\
  execs (calls (snd (folderConnectHook applicationIDFolder folderMaxCacheSize eng s))) =
    execs (calls s) ++ map (fun pragma => ("PRAGMA " ++ pragma)%string)
                           (folder_pragmas applicationIDFolder) /\
  fst (folderConnectHook applicationIDFolder folderMaxCacheSize eng s) = None.
Proof.
  intros HM Hf Hb.
  set (s0 := snd (folder_static_profile applicationIDFolder eng s)) in *.
  assert (Hfc : files_count eng s0 = 0) by (unfold files_count; now rewrite Hf).
  assert (Hbc : blocklists_count eng s0 = 0) by (unfold blocklists_count; now rewrite Hb).
  assert (Hkb : target_kb folderMaxCacheSize 0 0 = 0).
  { unfold target_kb, target_bytes.
    change (int64_mul 128 (count_estimate 0 0)) with 0.
    rewrite Z.min_l by exact HM. reflexivity. }
  repeat split.
  - rewrite loop_locals, Hfc, Hbc. reflexivity.
  - exact Hkb.
  - rewrite folder_hook_state. fold s0.
    rewrite tune_execs, Hfc, Hbc, Hkb. unfold s0.
    rewrite folder_static_profile_calls, execs_app.
    rewrite <- map_map with (f := fun pragma => ("PRAGMA " ++ pragma)%string) (g := Exec).
    rewrite execs_map_Exec. simpl. now rewrite app_nil_r.
  - apply folder_hook_result.
Qed.

Lemma both_probes_fail_witness :
  fst (for_range ["files"; "blocklists"] (count_table (fake_engine NoStatTable NoStatRow)) (0, 0)
         (snd (folder_static_profile 1398040164 (fake_engine NoStatTable NoStatRow) fresh_conn)))
    = (0, 0) /\
  count_estimate 0 0 = 0 /\
  target_kb 12800000 0 0 = 0 /\
  execs (calls (snd (folderConnectHook 1398040164 12800000
                       (fake_engine NoStatTable NoStatRow) fresh_conn))) =
    execs (calls fresh_conn) ++ map (fun pragma => ("PRAGMA " ++ pragma)%string)
                                    (folder_pragmas 1398040164) /\
  fst (folderConnectHook 1398040164 12800000 (fake_engine NoStatTable NoStatRow) fresh_conn)
    = None.
Proof.
  apply (both_probes_fail 1398040164 12800000 (fake_engine NoStatTable NoStatRow) fresh_conn
           AtPrepare AtFetch).
  - lia.
  - reflexivity.
  - reflexivity.
Defined.

(** ** The threshold *)

Lemma app_one_neq {A : Type} (l : list A) (x : A) : l ++ [x] <> l.
Proof.
  intros H. apply (f_equal (@length A)) in H. rewrite length_app in H. simpl in H. lia.
Qed.

(** C4: the override is executed exactly when the computed kilobyte value
    is strictly greater than 2000; for every value up to 2000 the
    estimator executes nothing, whatever the probes returned. *)
Theorem override_iff_above_threshold (folderMaxCacheSize : Z) (eng : Engine) (s : State) :
  (2000 < target_kb folderMaxCacheSize (files_count eng s) (blocklists_count eng s) <->
   execs (calls (snd (tuneFolderCacheSize folderMaxCacheSize eng s))) =
     execs (calls s) ++
     [cache_size_pragma
        (target_kb folderMaxCacheSize (files_count eng s) (blocklists_count eng s))]) /\
  (target_kb folderMaxCacheSize (files_count eng s) (blocklists_count eng s) <= 2000 <->
   execs (calls (snd (tuneFolderCacheSize folderMaxCacheSize eng s))) = execs (calls s)).
Proof.
  rewrite tune_execs. unfold override_for.
  destruct (Z.ltb_spec 2000
              (target_kb folderMaxCacheSize (files_count eng s) (blocklists_count eng s)))
    as [Hgt | Hle].
  - split; split; intros H; try reflexivity; try lia.
    exfalso. exact (app_one_neq _ _ H).
  - rewrite app_nil_r. split; split; intros H; try reflexivity; try lia.
    exfalso. symmetry in H. exact (app_one_neq _ _ H).
Qed.

Lemma override_iff_above_threshold_witness :
  target_kb 12800000 11719 0 = 1500 /\
  execs (calls (snd (tuneFolderCacheSize 12800000
                       (fake_engine (StatRow (Vint64 11719)) (StatRow (Vint64 0)))
                       fresh_conn))) = execs (calls fresh_conn).
Proof.
  split; [reflexivity |].
  apply (proj1 (proj2 (override_iff_above_threshold 12800000
                         (fake_engine (StatRow (Vint64 11719)) (StatRow (Vint64 0)))
                         fresh_conn))).
  by_evaluation.
Defined.

(** ** The ceiling *)

(** The claim of C5 as stated fails where the product of line 118
    overflows: with a ceiling of 1,000,000,000 bytes and 2^57 + 100000 rows
    for [files], the exact product is far above the ceiling, yet the
    directive carries 12800 and not the ceiling's 1000000. *)
Lemma clamp_lost_on_overflow :
  is_int64 (2 ^ 57 + 100000) /\
  1000000000 < 128 * Z.max (2 ^ 57 + 100000) 0 /\
  Z.min (128 * Z.max (2 ^ 57 + 100000) 0) 1000000000 ÷ 1000 = 1000000 /\
  execs (calls (snd (tuneFolderCacheSize 1000000000
                       (fake_engine (StatRow (Vint64 (2 ^ 57 + 100000))) NoStatRow)
                       fresh_conn))) = ["PRAGMA cache_size = -12800"%string] /\
  ~ (forall V : Z,
       execs (calls (snd (tuneFolderCacheSize 1000000000
                            (fake_engine (StatRow (Vint64 (2 ^ 57 + 100000))) NoStatRow)
                            fresh_conn))) = [cache_size_pragma V] ->
       V = 1000000000 ÷ 1000).
Proof.
  split; [| split; [| split; [| split]]].
  - unfold is_int64, min_int64, max_int64. lia.
  - lia.
  - reflexivity.
  - vm_compute. reflexivity.
  - intros H. specialize (H 12800). 
    assert (E : 12800 = 1000000000 ÷ 1000) by (apply H; vm_compute; reflexivity).
    discriminate E.
Qed.

(** The same for every ceiling of 2,002,000 bytes or more: 2^57 + 15633
    rows wrap to a product of 2,001,024 bytes. *)
Lemma clamp_lost_on_overflow_any_ceiling (folderMaxCacheSize : Z) :
  2002000 <= folderMaxCacheSize ->
  target_kb folderMaxCacheSize (2 ^ 57 + 15633) 0 = 2001 /\
  2001 < Z.min (128 * Z.max (2 ^ 57 + 15633) 0) folderMaxCacheSize ÷ 1000.
Proof.
  intros HM. split.
  - unfold target_kb, target_bytes.
    change (int64_mul 128 (count_estimate (2 ^ 57 + 15633) 0)) with 2001024.
    destruct (Z.min_spec 2001024 folderMaxCacheSize) as [[_ ->] | [Hle ->]].
    + reflexivity.
    + lia.
  - apply Z.lt_le_trans with (m := 2002000 ÷ 1000); [reflexivity |].
    apply Z.quot_le_mono; [lia | apply Z.min_glb; lia].
Qed.

(** C5, amended: as long as the row-count estimate stays within 56 bits,
    so that the product with 128 does not overflow, the value in the
    directive is min(128 * max(files, blocklists), ceiling) / 1000 in exact
    arithmetic, and it is ceiling / 1000 as soon as the product exceeds the
    ceiling. *)
Theorem clamped_value_without_overflow (folderMaxCacheSize : Z) (eng : Engine) (s : State) :
  - 2 ^ 56 <= Z.max (files_count eng s) (blocklists_count eng s) < 2 ^ 56 ->
  execs (calls (snd (tuneFolderCacheSize folderMaxCacheSize eng s))) =
    execs (calls s) ++
    (if (2000 <? Z.min (128 * Z.max (files_count eng s) (blocklists_count eng s))
                       folderMaxCacheSize ÷ 1000)%Z
     then [cache_size_pragma
             (Z.min (128 * Z.max (files_count eng s) (blocklists_count eng s))
                    folderMaxCacheSize ÷ 1000)]
     else []) /\
  (folderMaxCacheSize < 128 * Z.max (files_count eng s) (blocklists_count eng s) ->
   Z.min (128 * Z.max (files_count eng s) (blocklists_count eng s)) folderMaxCacheSize ÷ 1000
   = folderMaxCacheSize ÷ 1000).
Proof.
  intros Hn. split.
  - rewrite tune_execs, target_kb_exact by exact Hn. reflexivity.
  - intros Hover. rewrite Z.min_r by lia. reflexivity.
Qed.

Lemma clamped_value_without_overflow_witness :
  execs (calls (snd (tuneFolderCacheSize 12800000
                       (fake_engine (StatRow (Vint64 40000)) (StatRow (Vint64 5000000)))
                       fresh_conn))) = ["PRAGMA cache_size = -12800"%string].
Proof.
  pose proof (clamped_value_without_overflow 12800000
                (fake_engine (StatRow (Vint64 40000)) (StatRow (Vint64 5000000)))
                fresh_conn) as H.
  assert (Hn : - 2 ^ 56 <=
               Z.max (files_count (fake_engine (StatRow (Vint64 40000))
                                     (StatRow (Vint64 5000000))) fresh_conn)
                     (blocklists_count (fake_engine (StatRow (Vint64 40000))
                                          (StatRow (Vint64 5000000))) fresh_conn)
               < 2 ^ 56).
  { by_evaluation. }
  exact (proj1 (H Hn)).
Defined.

(** ** One table's failure *)

(** C6: whatever happens to the probe of one table, the loop probes both
    tables, each local ends up with its own table's count or with zero
    when that table's probe failed, and the estimator goes on to the max,
    the clamp and the threshold test with these two values. *)
Theorem table_failure_is_local (folderMaxCacheSize : Z) (eng : Engine) (s : State) :
  fst (for_range ["files"; "blocklists"] (count_table eng) (0, 0) s) =
    (match fst (fetch_count eng "files" s) with
     | Counted val => val
     | Skipped _ => 0
     end,
     match fst (fetch_count eng "blocklists" (snd (count_table eng "files" (0, 0) s))) with
     | Counted val => val
     | Skipped _ => 0
     end) /\
  (exists p1 p2,
     calls (snd (for_range ["files"; "blocklists"] (count_table eng) (0, 0) s)) =
       calls s ++ (Prepare (count_query "files") :: p1)
               ++ (Prepare (count_query "blocklists") :: p2)) /\
  tuneFolderCacheSize folderMaxCacheSize eng s =
    apply_cache_size eng
      (Z.min (int64_mul 128
                (Z.max (fst (fst (for_range ["files"; "blocklists"] (count_table eng) (0, 0) s)))
                       (snd (fst (for_range ["files"; "blocklists"] (count_table eng) (0, 0) s)))))
             folderMaxCacheSize ÷ 1000)
      (snd (for_range ["files"; "blocklists"] (count_table eng) (0, 0) s)).
Proof.
  split; [| split].
  - apply loop_locals.
  - destruct (after_counting_calls eng s) as (p1 & p2 & E & _).
    exists p1, p2. exact E.
  - rewrite tune_run, loop_locals. reflexivity.
Qed.

(** ** Order of the directives *)

(** C7: the folder hook executes the nine static directives in the order
    of the profile, from the journal mode to [cache_spill]; only then come
    the estimator's probes, none of which is an [Exec]; and the cache-size
    override, when there is one, is the last call on the connection. *)
Theorem folder_hook_order
    (applicationIDFolder folderMaxCacheSize : Z) (eng : Engine) (s : State) :
  exists probes dynamic,
    calls (snd (folderConnectHook applicationIDFolder folderMaxCacheSize eng s)) =
      calls s ++
      [ Exec "PRAGMA journal_mode = WAL";
        Exec "PRAGMA optimize = 0x10002";
        Exec "PRAGMA auto_vacuum = INCREMENTAL";
        Exec ("PRAGMA application_id = " ++ fmt_d applicationIDFolder)%string;
        Exec "PRAGMA busy_timeout = 5000";
        Exec "PRAGMA temp_store = MEMORY";
        Exec "PRAGMA synchronous = NORMAL";
        Exec "PRAGMA journal_size_limit = 8388608";
        Exec "PRAGMA cache_spill = FALSE" ] ++
      probes ++ dynamic /\
    forallb (fun c => negb (is_exec c)) probes = true /\
    (dynamic = [] \/
     exists V, 2000 < V /\ dynamic = [Exec ("PRAGMA cache_size = -" ++ fmt_d V)%string]).
Proof.
  rewrite folder_hook_state, tune_calls.
  set (s0 := snd (folder_static_profile applicationIDFolder eng s)).
  set (kb := target_kb folderMaxCacheSize (files_count eng s0) (blocklists_count eng s0)).
  destruct (after_counting_calls eng s0) as (p1 & p2 & E & N1 & N2).
  exists ((Prepare (count_query "files") :: p1) ++ (Prepare (count_query "blocklists") :: p2)).
  exists (map Exec (override_for kb)).
  split; [| split].
  - rewrite E. unfold s0 at 1. rewrite folder_static_profile_calls, <- !app_assoc.
    reflexivity.
  - rewrite forallb_app. cbn [forallb is_exec negb andb]. rewrite N1, N2. reflexivity.
  - unfold override_for. destruct (Z.ltb_spec 2000 kb) as [Hgt | Hle].
    + right. exists kb. split; [exact Hgt | reflexivity].
    + left. reflexivity.
Qed.

(** C8: the main hook executes the four directives of the main profile, in
    order, and nothing else: it prepares no statement, runs no query, and
    opens no handle. *)
Theorem main_hook_static_only (applicationIDMain : Z) (eng : Engine) (s : State) :
  calls (snd (mainConnectHook applicationIDMain eng s)) =
    calls s ++
    [ Exec "PRAGMA journal_mode = WAL";
      Exec "PRAGMA optimize = 0x10002";
      Exec "PRAGMA auto_vacuum = INCREMENTAL";
      Exec ("PRAGMA application_id = " ++ fmt_d applicationIDMain)%string ] /\
  open_stmts (snd (mainConnectHook applicationIDMain eng s)) = open_stmts s /\
  open_rows (snd (mainConnectHook applicationIDMain eng s)) = open_rows s.
Proof.
  exact (main_hook_run applicationIDMain eng s).
Qed.

(** C9: both hooks return [nil], whatever the engine answers to the
    directives and to the estimator's probes. *)
Theorem hooks_return_nil
    (applicationIDMain applicationIDFolder folderMaxCacheSize : Z)
    (eng : Engine) (s : State) :
  fst (mainConnectHook applicationIDMain eng s) = None /\
  fst (folderConnectHook applicationIDFolder folderMaxCacheSize eng s) = None.
Proof.
  split.
  - reflexivity.
  - apply folder_hook_result.
Qed.

(** A run on an engine that rejects every directive and every probe: all
    nine directives are still attempted, both tables are probed, no
    override follows, and the hook returns [nil]. *)
Example folder_hook_on_failing_engine :
  fst (folderConnectHook 1398040164 12800000 failing_engine fresh_conn) = None /\
  calls (snd (folderConnectHook 1398040164 12800000 failing_engine fresh_conn)) =
    [ Exec "PRAGMA journal_mode = WAL";
      Exec "PRAGMA optimize = 0x10002";
      Exec "PRAGMA auto_vacuum = INCREMENTAL";
      Exec "PRAGMA application_id = 1398040164";
      Exec "PRAGMA busy_timeout = 5000";
      Exec "PRAGMA temp_store = MEMORY";
      Exec "PRAGMA synchronous = NORMAL";
      Exec "PRAGMA journal_size_limit = 8388608";
      Exec "PRAGMA cache_spill = FALSE";
      Prepare (count_query "files");
      Prepare (count_query "blocklists") ].
Proof.
  split; vm_compute; reflexivity.
Qed.

(** The fixed-size hooks return [nil] as well, after their one directive. *)
Lemma fixed_cache_hooks_run (eng : Engine) (s : State) :
  FixedCache.mainConnectHook eng s =
    (None, called (Exec "PRAGMA cache_size = -8000") s) /\
  FixedCache.folderConnectHook eng s =
    (None, called (Exec "PRAGMA cache_size = -8000") s).
Proof.
  split; reflexivity.
Qed.

(** ** The value in the override *)

Lemma fmt_d_positive (z : Z) :
  0 < z -> fmt_d z = NilZero.string_of_uint (Pos.to_uint (Z.to_pos z)).
Proof.
  destruct z; intros H; try lia. reflexivity.
Qed.

(** The claim of C10 as stated fails for a negative estimate whose product
    with 128 wraps around: with -2^57 + 15633 rows reported for both
    tables the estimate is negative, and the override is executed, with
    the value 2001. *)
Lemma negative_estimate_triggers_override :
  is_int64 (- 2 ^ 57 + 15633) /\
  count_estimate (- 2 ^ 57 + 15633) (- 2 ^ 57 + 15633) < 0 /\
  count_estimate (- 2 ^ 57 + 15633) (- 2 ^ 57 + 15633) < 15633 /\
  fst (for_range ["files"; "blocklists"]
         (count_table (fake_engine (StatRow (Vint64 (- 2 ^ 57 + 15633)))
                                   (StatRow (Vint64 (- 2 ^ 57 + 15633)))))
         (0, 0) fresh_conn) = (- 2 ^ 57 + 15633, - 2 ^ 57 + 15633) /\
  execs (calls (snd (tuneFolderCacheSize 12800000
                       (fake_engine (StatRow (Vint64 (- 2 ^ 57 + 15633)))
                                    (StatRow (Vint64 (- 2 ^ 57 + 15633))))
                       fresh_conn))) = ["PRAGMA cache_size = -2001"%string].
Proof.
  split; [| split; [| split; [| split]]].
  - unfold is_int64, min_int64, max_int64. lia.
  - unfold count_estimate. lia.
  - unfold count_estimate. lia.
  - vm_compute. reflexivity.
  - vm_compute. reflexivity.
Qed.

(** C10, amended: an override that is executed carries a value V with
    2000 < V <= ceiling / 1000, written as unsigned decimal digits after
    the minus sign.  For an estimate within 56 bits, where the product with
    128 does not overflow, no override is executed below 15633 rows, in
    particular for none that is zero or negative; and with a ceiling of at
    least 2,001,000 bytes an override is executed from 15633 rows on,
    15633 rows giving 2,001,024 bytes and the value 2001. *)
Theorem override_value_bounds (folderMaxCacheSize : Z) (eng : Engine) (s : State) :
  (execs (calls (snd (tuneFolderCacheSize folderMaxCacheSize eng s))) = execs (calls s) \/
   exists V,
     execs (calls (snd (tuneFolderCacheSize folderMaxCacheSize eng s))) =
       execs (calls s) ++ [("PRAGMA cache_size = -" ++ fmt_d V)%string] /\
     V = target_kb folderMaxCacheSize (files_count eng s) (blocklists_count eng s) /\
     2000 < V <= folderMaxCacheSize ÷ 1000 /\
     fmt_d V = NilZero.string_of_uint (Pos.to_uint (Z.to_pos V))) /\
  (- 2 ^ 56 <= count_estimate (files_count eng s) (blocklists_count eng s) < 2 ^ 56 ->
   count_estimate (files_count eng s) (blocklists_count eng s) < 15633 ->
   execs (calls (snd (tuneFolderCacheSize folderMaxCacheSize eng s))) = execs (calls s)) /\
  (- 2 ^ 56 <= count_estimate (files_count eng s) (blocklists_count eng s) < 2 ^ 56 ->
   15633 <= count_estimate (files_count eng s) (blocklists_count eng s) ->
   2001000 <= folderMaxCacheSize ->
   execs (calls (snd (tuneFolderCacheSize folderMaxCacheSize eng s))) =
     execs (calls s) ++
     [cache_size_pragma
        (target_kb folderMaxCacheSize (files_count eng s) (blocklists_count eng s))]) /\
  int64_mul 128 15633 = 2001024 /\
  (2001000 <= folderMaxCacheSize -> target_kb folderMaxCacheSize 15633 0 = 2001).
Proof.
  set (kb := target_kb folderMaxCacheSize (files_count eng s) (blocklists_count eng s)).
  pose proof (target_kb_le_ceiling folderMaxCacheSize (files_count eng s)
                (blocklists_count eng s)) as Hceil. fold kb in Hceil.
  rewrite tune_execs. fold kb. unfold override_for, count_estimate.
  split; [| split; [| split; [| split]]].
  - destruct (Z.ltb_spec 2000 kb) as [Hgt | Hle].
    + right. exists kb. repeat split; try assumption; try lia.
      apply fmt_d_positive. lia.
    + left. apply app_nil_r.
  - intros Hn Hsmall.
    assert (Hkb : kb <= 2000).
    { unfold kb. rewrite target_kb_exact by exact Hn.
      apply Z.le_trans with (m := (128 * 15632) ÷ 1000); [| reflexivity].
      apply Z.quot_le_mono; lia. }
    destruct (Z.ltb_spec 2000 kb); [lia | apply app_nil_r].
  - intros Hn Hbig HM.
    assert (Hkb : 2000 < kb).
    { unfold kb. rewrite target_kb_exact by exact Hn.
      apply Z.lt_le_trans with (m := 2001000 ÷ 1000); [reflexivity |].
      apply Z.quot_le_mono; lia. }
    destruct (Z.ltb_spec 2000 kb); [reflexivity | lia].
  - reflexivity.
  - intros HM. unfold target_kb, target_bytes.
    change (int64_mul 128 (count_estimate 15633 0)) with 2001024.
    destruct (Z.min_spec 2001024 folderMaxCacheSize) as [[_ ->] | [Hlt ->]].
    + reflexivity.
    + symmetry. apply Z.quot_unique with (r := folderMaxCacheSize - 2001000); lia.
Qed.

Lemma override_value_bounds_witness :
  execs (calls (snd (tuneFolderCacheSize 12800000
                       (fake_engine (StatRow (Vint64 15632)) (StatRow (Vint64 (-7))))
                       fresh_conn))) = execs (calls fresh_conn) /\
  execs (calls (snd (tuneFolderCacheSize 12800000
                       (fake_engine (StatRow Vnil) (StatRow (Vint64 15633)))
                       fresh_conn))) =
    execs (calls fresh_conn) ++ ["PRAGMA cache_size = -2001"%string] /\
  target_kb 12800000 15633 0 = 2001.
Proof.
  split; [| split].
  - apply (proj1 (proj2 (override_value_bounds 12800000
                           (fake_engine (StatRow (Vint64 15632)) (StatRow (Vint64 (-7))))
                           fresh_conn))).
    + by_evaluation.
    + by_evaluation.
  - apply (proj1 (proj2 (proj2 (override_value_bounds 12800000
                                  (fake_engine (StatRow Vnil) (StatRow (Vint64 15633)))
                                  fresh_conn)))).
    + by_evaluation.
    + by_evaluation.
    + lia.
  - apply (proj2 (proj2 (proj2 (proj2 (override_value_bounds 12800000
                                         (fake_engine NoStatRow NoStatRow) fresh_conn))))).
    lia.
Defined.

(** * Further properties of the estimator and the hooks *)

(** ** One pass of the loop, in full *)

Lemma handles_fresh_spec (s : State) :
  handles_fresh s = true <->
  Forall (fun i => (i < next_id s)%nat) (open_stmts s) /\
  Forall (fun i => (i < next_id s)%nat) (open_rows s).
Proof.
  unfold handles_fresh. rewrite andb_true_iff, !forallb_forall, !Forall_forall.
  split; intros [H1 H2]; split; intros i Hi.
  - apply Nat.ltb_lt, H1, Hi.
  - apply Nat.ltb_lt, H2, Hi.
  - apply Nat.ltb_lt, H1, Hi.
  - apply Nat.ltb_lt, H2, Hi.
Qed.

Lemma Forall_lt_weaken (n m : nat) (l : list nat) :
  (n <= m)%nat -> Forall (fun i => (i < n)%nat) l -> Forall (fun i => (i < m)%nat) l.
Proof.
  intros Hnm H. eapply Forall_impl; [| exact H]. simpl. intros. lia.
Qed.

Lemma Forall_lt_snoc (n m : nat) (l : list nat) :
  (n < m)%nat -> Forall (fun i => (i < n)%nat) l -> Forall (fun i => (i < m)%nat) (l ++ [n]).
Proof.
  intros Hnm H. apply Forall_app. split.
  - apply Forall_lt_weaken with (n := n); [lia | exact H].
  - constructor; [exact Hnm | constructor].
Qed.

(** One pass, by the place where it ends: the calls it makes, the record
    it logs, the handles it obtains, and the handles it leaves open. *)
Lemma count_table_pass (eng : Engine) (table : string) (locals : Z * Z) (s : State) :
  calls (snd (count_table eng table locals s)) =
    calls s ++ pass_calls table (next_id s) (fst (fetch_count eng table s)) /\
  slog (snd (count_table eng table locals s)) =
    slog s ++ pass_log table (fst (fetch_count eng table s)) /\
  next_id (snd (count_table eng table locals s)) =
    (pass_ids (fst (fetch_count eng table s)) + next_id s)%nat /\
  (handles_fresh s = true ->
   open_stmts (snd (count_table eng table locals s)) =
     open_stmts s ++ pass_open_stmts (next_id s) (fst (fetch_count eng table s)) /\
   open_rows (snd (count_table eng table locals s)) =
     open_rows s ++ pass_open_rows (next_id s) (fst (fetch_count eng table s)) /\
   handles_fresh (snd (count_table eng table locals s)) = true).
Proof.
  unfold count_table, fetch_count. step_hook.
  destruct (prepare_outcome eng (calls s) _); simpl.
  { pass_start. rewrite !app_nil_r. repeat split. exact Hf. }
  destruct (query_outcome eng _ _); simpl.
  { pass_start. rewrite app_nil_r. split; [reflexivity | split; [reflexivity |]].
    apply handles_fresh_spec in Hf. destruct Hf as [Hs Hr].
    apply handles_fresh_spec. simpl. split.
    - apply Forall_lt_snoc; [lia | exact Hs].
    - apply Forall_lt_weaken with (n := next_id s); [lia | exact Hr]. }
  destruct (next_outcome eng _ _) as [err | result]; simpl.
  { pass_start. split; [reflexivity | split; [reflexivity |]].
    apply handles_fresh_spec in Hf. destruct Hf as [Hs Hr].
    apply handles_fresh_spec. simpl. split.
    - apply Forall_lt_snoc; [lia | exact Hs].
    - apply Forall_lt_snoc; [lia |].
      apply Forall_lt_weaken with (n := next_id s); [lia | exact Hr]. }
  assert (Hclose : handles_fresh s = true ->
            remove_id (next_id s) (open_stmts s ++ [next_id s]) = open_stmts s /\
            remove_id (S (next_id s)) (open_rows s ++ [S (next_id s)]) = open_rows s /\
            Forall (fun i => (i < S (S (next_id s)))%nat) (open_stmts s) /\
            Forall (fun i => (i < S (S (next_id s)))%nat) (open_rows s)).
  { intros Hf. apply handles_fresh_spec in Hf. destruct Hf as [Hs Hr].
    repeat split.
    - apply remove_id_fresh. exact Hs.
    - apply remove_id_fresh. apply Forall_lt_weaken with (n := next_id s); [lia | exact Hr].
    - apply Forall_lt_weaken with (n := next_id s); [lia | exact Hs].
    - apply Forall_lt_weaken with (n := next_id s); [lia | exact Hr]. }
  destruct result; simpl; pass_start;
    destruct (Hclose Hf) as (E1 & E2 & F1 & F2);
    rewrite E1, E2, !app_nil_r;
    (split; [reflexivity | split; [reflexivity |]]);
    apply handles_fresh_spec; simpl; rewrite ?E1, ?E2; split; assumption.
Qed.

(** ** The estimator, in full *)

Section EstimatorRun.

Variable folderMaxCacheSize : Z.
Variable eng : Engine.

Lemma after_counting_unfold (s : State) :
  after_counting eng s =
  snd (count_table eng "blocklists" (fst (count_table eng "files" (0, 0) s))
         (after_files eng s)).
Proof.
  unfold after_counting, after_files. cbn [for_range]. unfold bind at 1.
  destruct (count_table eng "files" (0, 0) s) as [l1 s1]. cbn [fst snd].
  unfold bind at 1.
  destruct (count_table eng "blocklists" l1 s1) as [l2 s2]. reflexivity.
Qed.

(** The two passes together. *)
Lemma after_counting_pass (s : State) :
  calls (after_counting eng s) =
    calls s ++ pass_calls "files" (next_id s) (files_outcome eng s)
            ++ pass_calls "blocklists" (pass_ids (files_outcome eng s) + next_id s)
                 (blocklists_outcome eng s) /\
  slog (after_counting eng s) =
    slog s ++ pass_log "files" (files_outcome eng s)
           ++ pass_log "blocklists" (blocklists_outcome eng s) /\
  next_id (after_counting eng s) =
    (pass_ids (blocklists_outcome eng s) + (pass_ids (files_outcome eng s) + next_id s))%nat /\
  (handles_fresh s = true ->
   open_stmts (after_counting eng s) =
     open_stmts s ++ pass_open_stmts (next_id s) (files_outcome eng s)
                  ++ pass_open_stmts (pass_ids (files_outcome eng s) + next_id s)
                       (blocklists_outcome eng s) /\
   open_rows (after_counting eng s) =
     open_rows s ++ pass_open_rows (next_id s) (files_outcome eng s)
                 ++ pass_open_rows (pass_ids (files_outcome eng s) + next_id s)
                      (blocklists_outcome eng s) /\
   handles_fresh (after_counting eng s) = true).
Proof.
  rewrite after_counting_unfold.
  destruct (count_table_pass eng "files" (0, 0) s) as (C1 & L1 & N1 & H1).
  destruct (count_table_pass eng "blocklists" (fst (count_table eng "files" (0, 0) s))
              (after_files eng s)) as (C2 & L2 & N2 & H2).
  fold (files_outcome eng s) in C1, L1, N1, H1.
  fold (after_files eng s) in C1, L1, N1, H1.
  fold (blocklists_outcome eng s) in C2, L2, N2, H2.
  rewrite C2, L2, N2, C1, L1, N1, <- !app_assoc.
  split; [reflexivity | split; [reflexivity | split; [reflexivity |]]].
  intros Hf.
  destruct (H1 Hf) as (S1 & R1 & F1). destruct (H2 F1) as (S2 & R2 & F2).
  rewrite S2, R2, S1, R1, N1, <- !app_assoc.
  split; [reflexivity | split; [reflexivity | exact F2]].
Qed.

(** Lines 122-127 touch the call log and the log output only. *)
Lemma apply_cache_size_state (target : Z) (s : State) :
  slog (snd (apply_cache_size eng target s)) =
    slog s ++ (if (2000 <? target)%Z then [(LevelInfo, "Folder DB cache tuned"%string)] else []) /\
  open_stmts (snd (apply_cache_size eng target s)) = open_stmts s /\
  open_rows (snd (apply_cache_size eng target s)) = open_rows s /\
  next_id (snd (apply_cache_size eng target s)) = next_id s.
Proof.
  unfold apply_cache_size.
  destruct (2000 <? target)%Z; step_hook; rewrite ?app_nil_r; repeat split.
Qed.

End EstimatorRun.


(** X2: what the estimator logs.  One record per table, a debug record
    with the table name when the count was obtained and otherwise one
    warning that names the step that failed, followed by the information
    record exactly when the override was executed. *)
Theorem tune_log (folderMaxCacheSize : Z) (eng : Engine) (s : State) :
  slog (snd (tuneFolderCacheSize folderMaxCacheSize eng s)) =
    slog s
    ++ pass_log "files" (files_outcome eng s)
    ++ pass_log "blocklists" (blocklists_outcome eng s)
    ++ (if (2000 <? target_kb folderMaxCacheSize (files_count eng s)
                      (blocklists_count eng s))%Z
        then [(LevelInfo, "Folder DB cache tuned"%string)] else []).
Proof.
  rewrite tune_run.
  destruct (apply_cache_size_state eng
              (target_kb folderMaxCacheSize (files_count eng s) (blocklists_count eng s))
              (after_counting eng s)) as (L & _).
  destruct (after_counting_pass eng s) as (_ & L' & _).
  rewrite L, L', <- !app_assoc. reflexivity.
Qed.

(** X3: the handles the estimator leaves open.  On a connection whose open
    handles were all handed out earlier, the statements and cursors open
    when the estimator returns are those open before, followed by the
    statement of each pass that failed at [Query] or [Next] and the cursor
    of each pass that failed at [Next]; nothing that was open before is
    closed. *)
Theorem tune_open_handles (folderMaxCacheSize : Z) (eng : Engine) (s : State) :
  handles_fresh s = true ->
  open_stmts (snd (tuneFolderCacheSize folderMaxCacheSize eng s)) =
    open_stmts s
    ++ pass_open_stmts (next_id s) (files_outcome eng s)
    ++ pass_open_stmts (pass_ids (files_outcome eng s) + next_id s)
         (blocklists_outcome eng s) /\
  open_rows (snd (tuneFolderCacheSize folderMaxCacheSize eng s)) =
    open_rows s
    ++ pass_open_rows (next_id s) (files_outcome eng s)
    ++ pass_open_rows (pass_ids (files_outcome eng s) + next_id s)
         (blocklists_outcome eng s) /\
  handles_fresh (snd (tuneFolderCacheSize folderMaxCacheSize eng s)) = true.
Proof.
  intros Hf. rewrite tune_run.
  destruct (apply_cache_size_state eng
              (target_kb folderMaxCacheSize (files_count eng s) (blocklists_count eng s))
              (after_counting eng s)) as (_ & S & R & N).
  destruct (after_counting_pass eng s) as (_ & _ & _ & H).
  destruct (H Hf) as (S' & R' & F').
  split; [now rewrite S, S' | split; [now rewrite R, R' |]].
  unfold handles_fresh in *. rewrite S, R, N. exact F'.
Qed.

Lemma tune_open_handles_witness :
  open_stmts (snd (tuneFolderCacheSize 12800000
                     (fake_engine QueryFails NoStatRow) fresh_conn)) = [0%nat; 1%nat] /\
  open_rows (snd (tuneFolderCacheSize 12800000
                    (fake_engine QueryFails NoStatRow) fresh_conn)) = [2%nat] /\
  handles_fresh (snd (tuneFolderCacheSize 12800000
                        (fake_engine QueryFails NoStatRow) fresh_conn)) = true.
Proof.
  apply (tune_open_handles 12800000 (fake_engine QueryFails NoStatRow) fresh_conn).
  reflexivity.
Defined.

(** ** The folder hook and its handles *)

Lemma folder_static_profile_handles (applicationIDFolder : Z) (eng : Engine) (s : State) :
  open_stmts (snd (folder_static_profile applicationIDFolder eng s)) = open_stmts s /\
  open_rows (snd (folder_static_profile applicationIDFolder eng s)) = open_rows s.
Proof.
  unfold folder_static_profile.
  unfold bind at 1 2. cbv beta iota delta [slog_at].
  destruct (profile_loop_run eng "Folder: " (folder_pragmas applicationIDFolder)
              {| calls := calls s; open_stmts := open_stmts s; open_rows := open_rows s;
                 next_id := next_id s;
                 slog := slog s ++ [(LevelDebug, "DB Connect (folder)"%string)] |})
    as (_ & Hs & Hr).
  split; assumption.
Qed.

(** X4: on a connection with no open handle, the folder hook returns with
    no statement and no cursor open exactly when neither pass of the
    estimator failed at [Query] or at [Next]; a failed [Prepare], a value
    that is not an [int64] and a successful count all leave the connection
    clean. *)
Theorem folder_hook_clean_iff
    (applicationIDFolder folderMaxCacheSize : Z) (eng : Engine) (s : State) :
  open_stmts s = [] ->
  open_rows s = [] ->
  (open_stmts (snd (folderConnectHook applicationIDFolder folderMaxCacheSize eng s)) = [] /\
   open_rows (snd (folderConnectHook applicationIDFolder folderMaxCacheSize eng s)) = [])
  <->
  (leaves_handle
     (files_outcome eng (snd (folder_static_profile applicationIDFolder eng s))) = false /\
   leaves_handle
     (blocklists_outcome eng (snd (folder_static_profile applicationIDFolder eng s))) = false).
Proof.
  intros Hs Hr. rewrite folder_hook_state.
  destruct (folder_static_profile_handles applicationIDFolder eng s) as (Hs0 & Hr0).
  set (s0 := snd (folder_static_profile applicationIDFolder eng s)) in *.
  assert (Hf : handles_fresh s0 = true).
  { unfold handles_fresh. rewrite Hs0, Hr0, Hs, Hr. reflexivity. }
  rewrite tune_run.
  destruct (apply_cache_size_state eng
              (target_kb folderMaxCacheSize (files_count eng s0) (blocklists_count eng s0))
              (after_counting eng s0)) as (_ & S & R & _).
  destruct (after_counting_pass eng s0) as (_ & _ & _ & H).
  destruct (H Hf) as (S' & R' & _).
  rewrite S, R, S', R', Hs0, Hr0, Hs, Hr.
  destruct (files_outcome eng s0) as [v1 | []], (blocklists_outcome eng s0) as [v2 | []];
    cbn [pass_open_stmts pass_open_rows leaves_handle app pass_ids];
    split; intros [H1 H2]; try discriminate; split; reflexivity.
Qed.

Lemma folder_hook_clean_iff_witness :
  open_stmts (snd (folderConnectHook 1398040164 12800000
                     (fake_engine NoStatTable (StatRow (Vstring "many"))) fresh_conn)) = [] /\
  open_rows (snd (folderConnectHook 1398040164 12800000
                    (fake_engine NoStatTable (StatRow (Vstring "many"))) fresh_conn)) = [].
Proof.
  apply (proj2 (folder_hook_clean_iff 1398040164 12800000
                  (fake_engine NoStatTable (StatRow (Vstring "many"))) fresh_conn
                  eq_refl eq_refl)).
  split; reflexivity.
Defined.

(** ** More rows, more cache *)

(** X5: as long as the estimates stay within 56 bits, the kilobyte target
    grows with the counts: raising either table's count never lowers the
    target, and a connection that gets the override keeps getting it when
    its counts grow. *)
Theorem target_kb_monotone (folderMaxCacheSize f b f' b' : Z) :
  - 2 ^ 56 <= Z.max f b ->
  Z.max f' b' < 2 ^ 56 ->
  f <= f' ->
  b <= b' ->
  target_kb folderMaxCacheSize f b <= target_kb folderMaxCacheSize f' b' /\
  (override_for (target_kb folderMaxCacheSize f b) <> [] ->
   override_for (target_kb folderMaxCacheSize f' b') <> []).
Proof.
  intros Hlo Hhi Hf Hb.
  assert (Hle : target_kb folderMaxCacheSize f b <= target_kb folderMaxCacheSize f' b').
  { rewrite !target_kb_exact by lia.
    apply Z.quot_le_mono; [lia |].
    apply Z.min_le_compat_r. lia. }
  split; [exact Hle |].
  unfold override_for.
  destruct (Z.ltb_spec 2000 (target_kb folderMaxCacheSize f b)) as [Hgt | Hsmall];
    [| intros H; now contradiction H].
  intros _.
  destruct (Z.ltb_spec 2000 (target_kb folderMaxCacheSize f' b')) as [Hgt' | Hsmall'];
    [discriminate | lia].
Qed.

Lemma target_kb_monotone_witness :
  target_kb 12800000 20000 0 <= target_kb 12800000 20000 90000 /\
  (override_for (target_kb 12800000 20000 0) <> [] ->
   override_for (target_kb 12800000 20000 90000) <> []).
Proof.
  apply (target_kb_monotone 12800000 20000 0 20000 90000).
  - by_evaluation.
  - by_evaluation.
  - lia.
  - lia.
Defined.

(** ** Rejected directives change nothing *)

Lemma for_range_ext {A L : Type} (body body' : A -> L -> M L) (l : list A) :
  (forall x acc s, body x acc s = body' x acc s) ->
  forall acc s, for_range l body acc s = for_range l body' acc s.
Proof.
  intros Hbody. induction l as [| x rest IH]; intros acc s; cbn [for_range].
  - reflexivity.
  - unfold bind. rewrite Hbody. destruct (body' x acc s) as [acc' s']. apply IH.
Qed.

Section SameProbes.

Variables e1 e2 : Engine.

Hypothesis same_prepare :
  forall history sql, prepare_outcome e1 history sql = prepare_outcome e2 history sql.
Hypothesis same_query :
  forall history stmt, query_outcome e1 history stmt = query_outcome e2 history stmt.
Hypothesis same_next :
  forall history rows, next_outcome e1 history rows = next_outcome e2 history rows.

Lemma fetch_count_same (table : string) (s : State) :
  fetch_count e1 table s = fetch_count e2 table s.
Proof.
  unfold fetch_count.
  cbv beta iota zeta delta [bind ret conn_Prepare stmt_Query rows_Next called].
  cbn [calls open_stmts open_rows next_id slog].
  rewrite same_prepare.
  destruct (prepare_outcome e2 (calls s) (count_query table)); [reflexivity |].
  cbn [calls open_stmts open_rows next_id slog].
  rewrite same_query.
  destruct (query_outcome e2 _ _); [reflexivity |].
  cbn [calls open_stmts open_rows next_id slog].
  rewrite same_next. reflexivity.
Qed.

Lemma count_table_same (table : string) (locals : Z * Z) (s : State) :
  count_table e1 table locals s = count_table e2 table locals s.
Proof.
  unfold count_table, bind. rewrite fetch_count_same. reflexivity.
Qed.

Lemma tune_same (folderMaxCacheSize : Z) (s : State) :
  tuneFolderCacheSize folderMaxCacheSize e1 s = tuneFolderCacheSize folderMaxCacheSize e2 s.
Proof.
  unfold tuneFolderCacheSize, bind.
  rewrite (for_range_ext (count_table e1) (count_table e2) _ count_table_same).
  destruct (for_range _ (count_table e2) (0, 0) s) as [locals s'].
  unfold apply_cache_size. destruct (2000 <? _)%Z; reflexivity.
Qed.

End SameProbes.

(** X6: the hooks never look at what [Exec] returns.  Two engines that
    answer the estimator's probes alike, however differently they answer
    the directives, take both hooks through the same calls, the same log
    records and the same handles, to the same result. *)
Theorem exec_outcome_is_ignored
    (applicationIDMain applicationIDFolder folderMaxCacheSize : Z)
    (e1 e2 : Engine) (s : State) :
  (forall history sql, prepare_outcome e1 history sql = prepare_outcome e2 history sql) ->
  (forall history stmt, query_outcome e1 history stmt = query_outcome e2 history stmt) ->
  (forall history rows, next_outcome e1 history rows = next_outcome e2 history rows) ->
  mainConnectHook applicationIDMain e1 s = mainConnectHook applicationIDMain e2 s /\
  folderConnectHook applicationIDFolder folderMaxCacheSize e1 s =
    folderConnectHook applicationIDFolder folderMaxCacheSize e2 s.
Proof.
  intros Hp Hq Hn. split.
  - unfold mainConnectHook, bind.
    destruct (slog_at LevelDebug "DB Connect (main)" s) as [u s0].
    rewrite for_range_ext with
      (body' := fun pragma (_ : unit) =>
                  let pragma_stmt := ("PRAGMA " ++ pragma)%string in
                  slog_at LevelDebug ("Main: " ++ pragma_stmt)%string ;;
                  conn_Exec e2 pragma_stmt ;;
                  ret tt);
      [reflexivity | intros; reflexivity].
  - unfold folderConnectHook, folder_static_profile, bind.
    destruct (slog_at LevelDebug "DB Connect (folder)" s) as [u s0].
    rewrite for_range_ext with
      (body' := fun pragma (_ : unit) =>
                  let pragma_stmt := ("PRAGMA " ++ pragma)%string in
                  slog_at LevelDebug ("Folder: " ++ pragma_stmt)%string ;;
                  conn_Exec e2 pragma_stmt ;;
                  ret tt);
      [| intros; reflexivity].
    destruct (for_range _ _ tt s0) as [u' s1].
    rewrite (tune_same e1 e2 Hp Hq Hn). reflexivity.
Qed.

Lemma exec_outcome_is_ignored_witness :
  mainConnectHook 1398041966 (fake_engine (StatRow (Vint64 100000)) NoStatRow) fresh_conn =
    mainConnectHook 1398041966
      (rejecting_exec (fake_engine (StatRow (Vint64 100000)) NoStatRow)) fresh_conn /\
  folderConnectHook 1398040164 12800000
      (fake_engine (StatRow (Vint64 100000)) NoStatRow) fresh_conn =
    folderConnectHook 1398040164 12800000
      (rejecting_exec (fake_engine (StatRow (Vint64 100000)) NoStatRow)) fresh_conn.
Proof.
  apply (exec_outcome_is_ignored 1398041966 1398040164 12800000
           (fake_engine (StatRow (Vint64 100000)) NoStatRow)
           (rejecting_exec (fake_engine (StatRow (Vint64 100000)) NoStatRow)) fresh_conn).
  - intros history sql. reflexivity.
  - intros history stmt. reflexivity.
  - intros history rows. reflexivity.
Defined.

(** ** The text of the override *)

Lemma read_back_negated (V : Z) :
  0 < V -> read_d ("-" ++ fmt_d V)%string = Some (- V).
Proof.
  destruct V as [| p | p]; intros H; try lia.
  unfold read_d, fmt_d.
  change ("-" ++ NilZero.string_of_int (Z.to_int (Z.pos p)))%string
    with (NilZero.string_of_int (Decimal.Neg (Pos.to_uint p))).
  rewrite NilZero.isi.
  - cbn [option_map Z.of_int]. unfold Z.of_uint.
    rewrite DecimalPos.Unsigned.of_to. reflexivity.
  - discriminate.
  - intros E. injection E as E. exact (DecimalPos.Unsigned.to_uint_nonnil p E).
Qed.

(** X7: the argument of an executed override reads back as the negated
    target.  Whenever the target is above 2000 the estimator executes
    [PRAGMA cache_size = ] followed by a text that is the decimal numeral
    of minus the target, a negative number, which is the form in which the
    engine takes a size rather than a page count. *)
Theorem override_argument_reads_back (folderMaxCacheSize : Z) (eng : Engine) (s : State) :
  2000 < target_kb folderMaxCacheSize (files_count eng s) (blocklists_count eng s) ->
  exists argument,
    execs (calls (snd (tuneFolderCacheSize folderMaxCacheSize eng s))) =
      execs (calls s) ++ [("PRAGMA cache_size = " ++ argument)%string] /\
    read_d argument =
      Some (- target_kb folderMaxCacheSize (files_count eng s) (blocklists_count eng s)) /\
    - target_kb folderMaxCacheSize (files_count eng s) (blocklists_count eng s) < - 2000.
Proof.
  intros Hkb.
  exists ("-" ++ fmt_d (target_kb folderMaxCacheSize (files_count eng s)
                          (blocklists_count eng s)))%string.
  split; [| split].
  - rewrite tune_execs. unfold override_for.
    destruct (Z.ltb_spec 2000 (target_kb folderMaxCacheSize (files_count eng s)
                                 (blocklists_count eng s))); [reflexivity | lia].
  - apply read_back_negated. lia.
  - lia.
Qed.

Lemma override_argument_reads_back_witness :
  exists argument,
    execs (calls (snd (tuneFolderCacheSize 12800000
                         (fake_engine (StatRow (Vint64 40000)) (StatRow (Vint64 20000)))
                         fresh_conn))) =
      execs (calls fresh_conn) ++ [("PRAGMA cache_size = " ++ argument)%string] /\
    read_d argument = Some (- 5120) /\
    - 5120 < - 2000.
Proof.
  apply (override_argument_reads_back 12800000
           (fake_engine (StatRow (Vint64 40000)) (StatRow (Vint64 20000))) fresh_conn).
  by_evaluation.
Defined.

(** ** A ceiling too low to matter *)

(** X8: with a ceiling below 2,001,000 bytes the estimator never executes
    an override, whatever the statistics say, overflowing counts included:
    its only calls are the probes. *)
Theorem low_ceiling_never_overrides (folderMaxCacheSize : Z) (eng : Engine) (s : State) :
  folderMaxCacheSize < 2001000 ->
  calls (snd (tuneFolderCacheSize folderMaxCacheSize eng s)) = calls (after_counting eng s) /\
  execs (calls (snd (tuneFolderCacheSize folderMaxCacheSize eng s))) = execs (calls s).
Proof.
  intros HM.
  assert (Hkb : target_kb folderMaxCacheSize (files_count eng s) (blocklists_count eng s)
                <= 2000).
  { apply Z.le_trans with (m := folderMaxCacheSize ÷ 1000);
      [apply target_kb_le_ceiling |].
    apply Z.le_trans with (m := 2000999 ÷ 1000); [| reflexivity].
    apply Z.quot_le_mono; lia. }
  assert (Hnone : override_for
            (target_kb folderMaxCacheSize (files_count eng s) (blocklists_count eng s)) = []).
  { unfold override_for.
    destruct (Z.ltb_spec 2000 (target_kb folderMaxCacheSize (files_count eng s)
                                 (blocklists_count eng s))); [lia | reflexivity]. }
  split.
  - rewrite tune_calls, Hnone. cbn [map]. apply app_nil_r.
  - rewrite tune_execs, Hnone. apply app_nil_r.
Qed.

Lemma low_ceiling_never_overrides_witness :
  calls (snd (tuneFolderCacheSize 2000999
                (fake_engine (StatRow (Vint64 100000)) (StatRow (Vint64 (2 ^ 57 + 100000))))
                fresh_conn)) =
    calls (after_counting
             (fake_engine (StatRow (Vint64 100000)) (StatRow (Vint64 (2 ^ 57 + 100000))))
             fresh_conn) /\
  execs (calls (snd (tuneFolderCacheSize 2000999
                (fake_engine (StatRow (Vint64 100000)) (StatRow (Vint64 (2 ^ 57 + 100000))))
                fresh_conn))) = execs (calls fresh_conn).
Proof.
  apply (low_ceiling_never_overrides 2000999
           (fake_engine (StatRow (Vint64 100000)) (StatRow (Vint64 (2 ^ 57 + 100000))))
           fresh_conn).
  lia.
Defined.

(** ** What the hooks log *)

Lemma profile_loop_log (eng : Engine) (prefix : string) (pragmas : list string) (s : State) :
  slog (snd (for_range pragmas
               (fun pragma (_ : unit) =>
                  let pragma_stmt := ("PRAGMA " ++ pragma)%string in
                  slog_at LevelDebug (prefix ++ pragma_stmt)%string ;;
                  conn_Exec eng pragma_stmt ;;
                  ret tt) tt s)) =
  slog s ++ map (fun pragma => (LevelDebug, (prefix ++ "PRAGMA " ++ pragma)%string)) pragmas.
Proof.
  revert s. induction pragmas as [| pragma rest IH]; intros s.
  - cbn [for_range ret snd map]. now rewrite app_nil_r.
  - cbn [for_range map]. unfold bind at 1.
    cbv beta zeta delta [bind ret slog_at conn_Exec called].
    cbv beta iota.
    pose proof (IH {| calls := calls s ++ [Exec ("PRAGMA " ++ pragma)%string];
                      open_stmts := open_stmts s; open_rows := open_rows s;
                      next_id := next_id s;
                      slog := slog s
                              ++ [(LevelDebug, (prefix ++ ("PRAGMA " ++ pragma))%string)] |})
      as H.
    cbn [slog] in H. rewrite <- app_assoc in H. exact H.
Qed.

(** X9: what the hooks log.  Each hook logs its connect record and then
    one debug record per directive of its profile, in order, for every
    engine: a rejected directive is not logged as a warning.  The folder
    hook's log goes on with the estimator's records, so its only warnings
    are those of failed probes, one for each. *)
Theorem hooks_log
    (applicationIDMain applicationIDFolder folderMaxCacheSize : Z)
    (eng : Engine) (s : State) :
  slog (snd (mainConnectHook applicationIDMain eng s)) =
    slog s
    ++ (LevelDebug, "DB Connect (main)"%string)
       :: map (fun pragma => (LevelDebug, ("Main: PRAGMA " ++ pragma)%string))
              (main_pragmas applicationIDMain) /\
  slog (snd (folderConnectHook applicationIDFolder folderMaxCacheSize eng s)) =
    slog s
    ++ (LevelDebug, "DB Connect (folder)"%string)
       :: map (fun pragma => (LevelDebug, ("Folder: PRAGMA " ++ pragma)%string))
              (folder_pragmas applicationIDFolder)
    ++ pass_log "files"
         (files_outcome eng (snd (folder_static_profile applicationIDFolder eng s)))
    ++ pass_log "blocklists"
         (blocklists_outcome eng (snd (folder_static_profile applicationIDFolder eng s)))
    ++ (if (2000 <? target_kb folderMaxCacheSize
                      (files_count eng (snd (folder_static_profile applicationIDFolder eng s)))
                      (blocklists_count eng
                         (snd (folder_static_profile applicationIDFolder eng s))))%Z
        then [(LevelInfo, "Folder DB cache tuned"%string)] else []).
Proof.
  split.
  - unfold mainConnectHook.
    unfold bind at 1. cbv beta iota delta [slog_at].
    unfold bind at 1.
    pose proof (profile_loop_log eng "Main: " (main_pragmas applicationIDMain)
              {| calls := calls s; open_stmts := open_stmts s; open_rows := open_rows s;
                 next_id := next_id s;
                 slog := slog s ++ [(LevelDebug, "DB Connect (main)"%string)] |}) as L.
    destruct (for_range (main_pragmas applicationIDMain) _ tt _) as [u s'].
    cbn [snd ret slog] in *. rewrite L, <- app_assoc. reflexivity.
  - rewrite folder_hook_state, tune_run.
    set (s0 := snd (folder_static_profile applicationIDFolder eng s)).
    destruct (apply_cache_size_state eng
                (target_kb folderMaxCacheSize (files_count eng s0) (blocklists_count eng s0))
                (after_counting eng s0)) as (La & _).
    destruct (after_counting_pass eng s0) as (_ & Lc & _).
    rewrite La, Lc. unfold s0 at 1.
    assert (L : slog (snd (folder_static_profile applicationIDFolder eng s)) =
                slog s
                ++ (LevelDebug, "DB Connect (folder)"%string)
                   :: map (fun pragma => (LevelDebug, ("Folder: PRAGMA " ++ pragma)%string))
                          (folder_pragmas applicationIDFolder)).
    { unfold folder_static_profile.
      unfold bind at 1. cbv beta iota delta [slog_at].
      pose proof (profile_loop_log eng "Folder: " (folder_pragmas applicationIDFolder)
              {| calls := calls s; open_stmts := open_stmts s; open_rows := open_rows s;
                 next_id := next_id s;
                 slog := slog s ++ [(LevelDebug, "DB Connect (folder)"%string)] |}) as H.
      cbn [slog] in H. rewrite <- app_assoc in H. exact H. }
    rewrite L, <- !app_assoc. reflexivity.
Qed.
